(** * A shallow embedding of pyleak's combined detector, its pytest
    plugin and its caller-context resolver, with proofs of the
    properties documented for them. *)

From Stdlib Require Import QArith.
From stdpp Require Import base gmap strings list fin_maps.

Local Open Scope string_scope.
Set Warnings "-register-all".

(* ===================================================================== *)
(** ** Python values and exceptions                                       *)
(* ===================================================================== *)

(** The values that flow through marker arguments and configuration
    fields.  Floats are kept as rationals: the code only stores them. *)
Inductive PyVal :=
| VNone
| VBool (b : bool)
| VInt (z : Z)
| VFloat (q : Q)
| VStr (s : string).

(** Python truthiness, as used by [if self.config.detect_tasks:]. *)
Definition truthy (v : PyVal) : bool :=
  match v with
  | VNone => false
  | VBool b => b
  | VInt z => negb (Z.eqb z 0)
  | VFloat q => negb (Qeq_bool q 0)
  | VStr s => negb (String.eqb s "")
  end.

(** The exceptions that matter here.  Leak errors carry their [str()]. *)
Inductive PyExc :=
| ThreadLeakError (msg : string)
| EventLoopBlockError (msg : string)
| TaskLeakError (msg : string)
| PyleakExceptionGroup (msg : string) (errors : list PyExc)
| AttributeError (name : string)
| IndexError
| OtherExc (id : nat).

(** A computation that returns a value or raises. *)
Inductive Result (A : Type) :=
| Ok (a : A)
| Raise (e : PyExc).
Arguments Ok {A} a.
Arguments Raise {A} e.

(** Python dicts with string keys. *)
Abbreviation pydict := (gmap string PyVal).

(** [d.get(k, default)] *)
Definition dict_get (d : pydict) (k : string) (default : PyVal) : PyVal :=
  match d !! k with
  | Some v => v
  | None => default
  end.

(** [d.update(other)]: keys of [other] overwrite those of [d]. *)
Definition dict_update (d other : pydict) : pydict := other ∪ d.

(* ===================================================================== *)
(** ** combined.py : PyLeakConfig                                         *)
(* ===================================================================== *)

Record PyLeakConfig := {
  detect_tasks : PyVal;
  task_action : PyVal;
  task_name_filter : PyVal;
  enable_task_creation_tracking : PyVal;
  detect_threads : PyVal;
  thread_action : PyVal;
  thread_name_filter : PyVal;
  exclude_daemon_threads : PyVal;
  detect_blocking : PyVal;
  blocking_action : PyVal;
  blocking_threshold : PyVal;
  blocking_check_interval : PyVal
}.

(** [PyLeakConfig(marker_args)], i.e. [PyLeakConfig.__init__]. *)
Definition PyLeakConfig_init (marker_args : pydict) : PyLeakConfig := {|
  detect_tasks := dict_get marker_args "tasks" (VBool true);
  task_action := dict_get marker_args "task_action" (VStr "raise");
  task_name_filter := dict_get marker_args "task_name_filter" VNone;
  enable_task_creation_tracking :=
    dict_get marker_args "enable_creation_tracking" (VBool false);
  detect_threads := dict_get marker_args "threads" (VBool true);
  thread_action := dict_get marker_args "thread_action" (VStr "raise");
  thread_name_filter := dict_get marker_args "thread_name_filter" VNone;
  exclude_daemon_threads := dict_get marker_args "exclude_daemon" (VBool true);
  detect_blocking := dict_get marker_args "blocking" (VBool true);
  blocking_action := dict_get marker_args "blocking_action" (VStr "raise");
  blocking_threshold := dict_get marker_args "blocking_threshold" (VFloat (1 # 10));
  blocking_check_interval :=
    dict_get marker_args "blocking_check_interval" (VFloat (1 # 100))
|}.

(** The class-level callables (classmethods / staticmethods) that
    [class PyLeakConfig] defines, by name.  The class body defines only
    [__init__], an instance method, so there are none. *)
Definition PyLeakConfig_class_callables : list (string * (pydict -> PyLeakConfig)) := [].

(** Attribute lookup [PyLeakConfig.<name>] followed by a call. *)
Definition PyLeakConfig_call_classattr (name : string) (arg : pydict)
  : Result PyLeakConfig :=
  match list_find (fun p => p.1 = name) PyLeakConfig_class_callables with
  | Some (_, (_, f)) => Ok (f arg)
  | None => Raise (AttributeError name)
  end.

(* ===================================================================== *)
(** ** pytest_plugin.py : should_monitor_test                             *)
(* ===================================================================== *)

(** A [pytest.Mark]: positional [args] and keyword [kwargs]. *)
Record Marker := { margs : list PyVal; mkwargs : pydict }.

(** One iteration of [for arg in marker.args:]. *)
Definition apply_flag (acc : pydict) (arg : PyVal) : pydict :=
  match arg with
  | VStr "tasks" => <["tasks" := VBool true]> acc
  | VStr "threads" => <["threads" := VBool true]> acc
  | VStr "blocking" => <["blocking" := VBool true]> acc
  | VStr "all" =>
      dict_update acc
        (<["tasks" := VBool true]> (<["threads" := VBool true]>
           (<["blocking" := VBool true]> ∅)))
  | _ => acc
  end.

(** The [marker_args] dict built by [should_monitor_test] before the
    final call. *)
Definition resolve_marker_args (m : Marker) : pydict :=
  let a := foldl apply_flag ∅ (margs m) in
  let a := if decide (mkwargs m = ∅) then a else dict_update a (mkwargs m) in
  if decide (a = ∅)
  then <["tasks" := VBool true]> (<["threads" := VBool true]>
         (<["blocking" := VBool true]> ∅))
  else a.

(** [should_monitor_test(item)], with [item.get_closest_marker("no_leaks")]
    given as [closest]. *)
Definition should_monitor_test (closest : option Marker)
  : Result (option PyLeakConfig) :=
  match closest with
  | None => Ok None
  | Some m =>
      match PyLeakConfig_call_classattr "from_marker_args" (resolve_marker_args m) with
      | Ok c => Ok (Some c)
      | Raise e => Raise e
      end
  end.

(* ===================================================================== *)
(** ** combined.py : CombinedLeakDetector                                 *)
(* ===================================================================== *)

(** The three detectors, with the arguments they are built with
    ([no_task_leaks(...)], [no_event_loop_blocking(...)],
    [no_thread_leaks(...)]). *)
Inductive Detector :=
| TaskDet (action name_filter creation_tracking : PyVal)
| BlockingDet (action threshold check_interval : PyVal)
| ThreadDet (action name_filter exclude_daemon : PyVal).

(** Which detector class a value belongs to. *)
Inductive DetKind := KTask | KBlocking | KThread.

Definition det_kind (d : Detector) : DetKind :=
  match d with
  | TaskDet _ _ _ => KTask
  | BlockingDet _ _ _ => KBlocking
  | ThreadDet _ _ _ => KThread
  end.

Record CombinedLeakDetector := {
  config : PyLeakConfig;
  is_async : bool;
  task_detector : option Detector;
  thread_detector : option Detector;
  blocking_detector : option Detector
}.

(** [CombinedLeakDetector(config, is_async)] *)
Definition CLD_init (c : PyLeakConfig) (a : bool) : CombinedLeakDetector :=
  {| config := c; is_async := a; task_detector := None;
     thread_detector := None; blocking_detector := None |}.

Definition set_task (s : CombinedLeakDetector) (d : Detector) :=
  {| config := config s; is_async := is_async s; task_detector := Some d;
     thread_detector := thread_detector s; blocking_detector := blocking_detector s |}.
Definition set_thread (s : CombinedLeakDetector) (d : Detector) :=
  {| config := config s; is_async := is_async s; task_detector := task_detector s;
     thread_detector := Some d; blocking_detector := blocking_detector s |}.
Definition set_blocking (s : CombinedLeakDetector) (d : Detector) :=
  {| config := config s; is_async := is_async s; task_detector := task_detector s;
     thread_detector := thread_detector s; blocking_detector := Some d |}.

(** The observable effects on the detectors: each [__enter__]/[__aenter__]
    and each [__exit__]/[__aexit__] call, in order. *)
Inductive DetEvent := Start (d : Detector) | Stop (d : Detector).

(** The detectors' own methods are not part of this module; they are
    parameters of the scope: [det_enter d] is what [d.__enter__()]
    raises (if anything), [det_exit x d] is what [d.__exit__(x...)]
    raises when the scope exits with exception [x] (if anything). *)
Section Combined.
Variable det_enter : Detector -> option PyExc.
Variable det_exit : option PyExc -> Detector -> option PyExc.

(** A computation over the detector trace that may raise. *)
Definition Trace (A : Type) := list DetEvent -> Result A * list DetEvent.

Definition ret {A} (a : A) : Trace A := fun tr => (Ok a, tr).
Definition bind {A B} (m : Trace A) (k : A -> Trace B) : Trace B :=
  fun tr => match m tr with
            | (Ok a, tr') => k a tr'
            | (Raise e, tr') => (Raise e, tr')
            end.
Definition raise {A} (e : PyExc) : Trace A := fun tr => (Raise e, tr).

Local Notation "'let!' x := m 'in' k" := (bind m (fun x => k))
  (at level 200, x name, m at level 100, k at level 200).

(** [d.__enter__()] *)
Definition enter (d : Detector) : Trace unit :=
  fun tr => match det_enter d with
            | None => (Ok tt, (tr ++ [Start d])%list)
            | Some e => (Raise e, (tr ++ [Start d])%list)
            end.

(** [d.__exit__(exc_type, exc_val, exc_tb)] *)
Definition exit (x : option PyExc) (d : Detector) : Trace unit :=
  fun tr => match det_exit x d with
            | None => (Ok tt, (tr ++ [Stop d])%list)
            | Some e => (Raise e, (tr ++ [Stop d])%list)
            end.

(** [try: body  except <caught> as e: leak_errors.append(e)] *)
Definition try_collect (caught : PyExc -> bool) (body : Trace unit)
  (errs : list PyExc) : Trace (list PyExc) :=
  fun tr => match body tr with
            | (Ok _, tr') => (Ok errs, tr')
            | (Raise e, tr') =>
                if caught e then (Ok (errs ++ [e])%list, tr') else (Raise e, tr')
            end.

Definition is_ThreadLeakError (e : PyExc) : bool :=
  match e with ThreadLeakError _ => true | _ => false end.
Definition is_EventLoopBlockError (e : PyExc) : bool :=
  match e with EventLoopBlockError _ => true | _ => false end.
Definition is_TaskLeakError (e : PyExc) : bool :=
  match e with TaskLeakError _ => true | _ => false end.

(** [str(e)] *)
Definition exc_str (e : PyExc) : string :=
  match e with
  | ThreadLeakError m | EventLoopBlockError m | TaskLeakError m
  | PyleakExceptionGroup m _ | AttributeError m => m
  | IndexError => "IndexError"
  | OtherExc _ => "error"
  end.

(** ["PyLeak detected issues:\n" + "\n\n".join([str(e) for e in leak_errors])] *)
Definition group_msg (errs : list PyExc) : string :=
  "PyLeak detected issues:" ++ String (Ascii.ascii_of_nat 10) ""
  ++ String.concat (String (Ascii.ascii_of_nat 10) (String (Ascii.ascii_of_nat 10) ""))
                   (map exc_str errs).

(** [async def __aenter__(self)] *)
Definition aenter (s : CombinedLeakDetector) : Trace CombinedLeakDetector :=
  let c := config s in
  let! s := (if is_async s && truthy (detect_tasks c) then
          let d := TaskDet (task_action c) (task_name_filter c)
                           (enable_task_creation_tracking c) in
          let! _ := enter d in ret (set_task s d)
        else ret s) in
  let! s := (if is_async s && truthy (detect_blocking c) then
          let d := BlockingDet (blocking_action c) (blocking_threshold c)
                               (blocking_check_interval c) in
          let! _ := enter d in ret (set_blocking s d)
        else ret s) in
  let! s := (if truthy (detect_threads c) then
          let d := ThreadDet (thread_action c) (thread_name_filter c)
                             (exclude_daemon_threads c) in
          let! _ := enter d in ret (set_thread s d)
        else ret s) in
  ret s.

(** [async def __aexit__(self, exc_type, exc_val, exc_tb)]; it returns
    [None] or raises. *)
Definition aexit (s : CombinedLeakDetector) (x : option PyExc) : Trace unit :=
  let! errs := (match thread_detector s with
           | Some d => try_collect is_ThreadLeakError (exit x d) []
           | None => ret []
           end) in
  let! errs := (match blocking_detector s with
           | Some d => try_collect is_EventLoopBlockError (exit x d) errs
           | None => ret errs
           end) in
  let! errs := (match task_detector s with
           | Some d => try_collect is_TaskLeakError (exit x d) errs
           | None => ret errs
           end) in
  match errs with
  | [] => ret tt
  | _ => raise (PyleakExceptionGroup (group_msg errs) errs)
  end.

(** [def __enter__(self)] *)
Definition enter_sync (s : CombinedLeakDetector) : Trace CombinedLeakDetector :=
  let c := config s in
  let! s := (if truthy (detect_threads c) then
          let d := ThreadDet (thread_action c) (thread_name_filter c)
                             (exclude_daemon_threads c) in
          let! _ := enter d in ret (set_thread s d)
        else ret s) in
  ret s.

(** [def __exit__(self, exc_type, exc_val, exc_tb)] *)
Definition exit_sync (s : CombinedLeakDetector) (x : option PyExc) : Trace unit :=
  match thread_detector s with
  | Some d => exit x d
  | None => ret tt
  end.

(** How an [async with detector: <body>] statement ends. *)
Inductive ScopeOutcome :=
| Returned
(** an exception propagates out of the [async with]; [context] is its
    implicit [__context__] set by Python when it was raised while
    handling another one *)
| Propagated (primary : PyExc) (context : option PyExc).

(** [async with detector: body], where the body runs after a successful
    [__aenter__] and ends normally ([None]) or by raising ([Some x]). *)
Definition async_with (s : CombinedLeakDetector) (body : option PyExc)
  : ScopeOutcome * list DetEvent :=
  match aenter s [] with
  | (Raise e, tr) => (Propagated e None, tr)
  | (Ok s', tr) =>
      match aexit s' body tr with
      | (Ok _, tr') =>
          (match body with
           | None => Returned
           | Some x => Propagated x None
           end, tr')
      | (Raise e, tr') => (Propagated e body, tr')
      end
  end.

(** [with detector: body] *)
Definition sync_with (s : CombinedLeakDetector) (body : option PyExc)
  : ScopeOutcome * list DetEvent :=
  match enter_sync s [] with
  | (Raise e, tr) => (Propagated e None, tr)
  | (Ok s', tr) =>
      match exit_sync s' body tr with
      | (Ok _, tr') =>
          (match body with
           | None => Returned
           | Some x => Propagated x None
           end, tr')
      | (Raise e, tr') => (Propagated e body, tr')
      end
  end.

End Combined.

(** The detectors [__aenter__] starts on a fresh [CombinedLeakDetector],
    in the order the code starts them. *)
Definition started (c : PyLeakConfig) (a : bool) : list Detector :=
  (if a && truthy (detect_tasks c)
   then [TaskDet (task_action c) (task_name_filter c) (enable_task_creation_tracking c)]
   else [])
  ++ (if a && truthy (detect_blocking c)
      then [BlockingDet (blocking_action c) (blocking_threshold c) (blocking_check_interval c)]
      else [])
  ++ (if truthy (detect_threads c)
      then [ThreadDet (thread_action c) (thread_name_filter c) (exclude_daemon_threads c)]
      else []).

(** A detector's [__exit__] raises, if anything, its own leak error. *)
Definition own_error (d : Detector) (e : PyExc) : bool :=
  match d, e with
  | ThreadDet _ _ _, ThreadLeakError _ => true
  | BlockingDet _ _ _, EventLoopBlockError _ => true
  | TaskDet _ _ _, TaskLeakError _ => true
  | _, _ => false
  end.

Definition exits_raise_own (det_exit : option PyExc -> Detector -> option PyExc) : Prop :=
  forall x d e, det_exit x d = Some e -> own_error d e = true.

Definition opt_list {A} (o : option A) : list A :=
  match o with Some a => [a] | None => [] end.

(** The errors the detectors raise at exit, in the order they are stopped. *)
Definition detector_errors (det_exit : option PyExc -> Detector -> option PyExc)
  (x : option PyExc) (ds : list Detector) : list PyExc :=
  flat_map (fun d => opt_list (det_exit x d)) (rev ds).

(** How the scope ends when the detectors report nothing. *)
Definition body_outcome (body : option PyExc) : ScopeOutcome :=
  match body with None => Returned | Some x => Propagated x None end.

(* ===================================================================== *)
(** ** utils.py : CallerContext, _is_user_file, find_my_caller            *)
(* ===================================================================== *)

(** A [traceback.FrameSummary]. *)
Record FrameSummary := { f_filename : string; f_name : string; f_lineno : Z }.

Record CallerContext := {
  cc_filename : string;
  cc_name : string;
  cc_lineno : option Z;
  cc_files : option (gset string)
}.

(** [needle in hay] for strings. *)
Definition str_contains (needle hay : string) : bool :=
  match String.index 0 needle hay with Some _ => true | None => false end.

(** [_is_user_file(filename)]; [src_dir] is [_pyleak_src_dir]. *)
Definition _is_user_file (src_dir filename : string) : bool :=
  if str_contains "site-packages" filename || str_contains "lib/python" filename
  then false
  else if String.prefix src_dir filename then false
  else true.

(** [xs[i]] for an integer [i], negative indices counting from the end. *)
Definition py_index {A} (xs : list A) (i : Z) : Result A :=
  let j := if (i <? 0)%Z then (Z.of_nat (length xs) + i)%Z else i in
  if (0 <=? j)%Z && (j <? Z.of_nat (length xs))%Z
  then match xs !! Z.to_nat j with Some x => Ok x | None => Raise IndexError end
  else Raise IndexError.

(** [xs[:stop]] *)
Definition py_slice_upto {A} (xs : list A) (stop : Z) : list A :=
  let n := Z.of_nat (length xs) in
  let stop := if (stop <? 0)%Z then Z.max 0 (n + stop) else Z.min stop n in
  take (Z.to_nat stop) xs.

(** [find_my_caller(ignore_frames)], with [traceback.extract_stack()]
    given as [stack] (outermost frame first). *)
Definition find_my_caller (src_dir : string) (stack : list FrameSummary)
  (ignore_frames : Z) : Result CallerContext :=
  match py_index stack (- ignore_frames - 1) with
  | Raise e => Raise e
  | Ok frame =>
      let files : gset string :=
        list_to_set (map f_filename
          (filter (fun f => _is_user_file src_dir (f_filename f) = true)
                  (py_slice_upto stack (- ignore_frames)))) in
      Ok {| cc_filename := f_filename frame; cc_name := f_name frame;
            cc_lineno := Some (f_lineno frame); cc_files := Some files |}
  end.

(* ===================================================================== *)
(** ** The event-loop blocking detector (pyleak.eventloop)                *)
(* ===================================================================== *)

(** A [BlockingEvent]; times are in integer ticks. *)
Record BlockingEvent := {
  block_id : nat;
  timestamp : Z;
  duration : Z;
  stack : list FrameSummary
}.

(** Modelled from the spec: the heartbeat of the event-loop blocking
    detector ([pyleak.eventloop], absent from this source tree).  The
    heartbeat last woke at [w] and sleeps [check_interval]; the loop is
    monopolised by one synchronous block over [[s, s + d)], so a wake-up
    falling inside it is delayed to [s + d]; on resumption
    [actual_delay = now - w], and a stall is recorded when
    [actual_delay - check_interval > threshold], with that excess as its
    duration, the resumption time as its timestamp and the stack the
    sampler [captured].  The scope, and with it the heartbeat, ends at
    [e]; [block_id]s count from [next_id]. *)
Fixpoint heartbeat (check_interval threshold s d e : Z) (captured : list FrameSummary)
  (fuel : nat) (w : Z) (next_id : nat) : list BlockingEvent :=
  match fuel with
  | O => []
  | S fuel' =>
      let due := (w + check_interval)%Z in
      if (e <=? due)%Z then []
      else
        let now := if (s <=? due)%Z && (due <? s + d)%Z then (s + d)%Z else due in
        let actual_delay := (now - w)%Z in
        if (threshold <? actual_delay - check_interval)%Z
        then {| block_id := next_id; timestamp := now;
                duration := actual_delay - check_interval; stack := captured |}
             :: heartbeat check_interval threshold s d e captured fuel' now (S next_id)
        else heartbeat check_interval threshold s d e captured fuel' now next_id
  end.

(** Modelled from the spec: the events recorded over a scope entered at
    [w0] and left at [e], with [block_id]s starting at 1.  Each wake-up
    advances the clock by at least one tick, so [e - w0 + 1] rounds
    suffice. *)
Definition blocking_events (check_interval threshold w0 s d e : Z)
  (captured : list FrameSummary) : list BlockingEvent :=
  heartbeat check_interval threshold s d e captured (S (Z.to_nat (e - w0))) w0 1.

(** The notices of the [warn] action. *)
Inductive Notice :=
| NBlocked (duration : Z) (stack : list FrameSummary)
| NSummary (count : nat)
| NOrigin (origin : CallerContext) (line : option FrameSummary).

(** What the scope exit does with the recorded events. *)
Record Dispatch := {
  warnings : list Notice;
  log_records : list BlockingEvent;
  raised : option (list BlockingEvent)  (** the events of the typed error *)
}.

(** Modelled from the spec: the first offending source line, the
    innermost frame of the first event's captured stack. *)
Definition offending_line (events : list BlockingEvent) : option FrameSummary :=
  match events with
  | ev :: _ => last (stack ev)
  | [] => None
  end.

(** Modelled from the spec: the action dispatch of the event-loop
    blocking detector at scope exit ([pyleak.eventloop], absent from this
    source tree). *)
Definition blocking_dispatch (action : string) (origin : CallerContext)
  (events : list BlockingEvent) : Dispatch :=
  match events with
  | [] => {| warnings := []; log_records := []; raised := None |}
  | _ =>
      if String.eqb action "log" then
        {| warnings := []; log_records := events; raised := None |}
      else if String.eqb action "warn" then
        {| warnings := map (fun ev => NBlocked (duration ev) (stack ev)) events
                       ++ [NSummary (length events); NOrigin origin (offending_line events)];
           log_records := []; raised := None |}
      else if String.eqb action "raise" then
        {| warnings := []; log_records := []; raised := Some events |}
      else {| warnings := []; log_records := []; raised := None |}
  end.

(* ===================================================================== *)
(** ** Concrete scenarios                                                 *)
(* ===================================================================== *)

(** The configuration of [@pytest.mark.no_leaks] with every detector on. *)
Definition cfg_all : PyLeakConfig := PyLeakConfig_init ∅.

Definition no_enter_fault (_ : Detector) : option PyExc := None.

(** Only the task-leak detector finds something. *)
Definition task_leak_only (_ : option PyExc) (d : Detector) : option PyExc :=
  match d with TaskDet _ _ _ => Some (TaskLeakError "leaked task") | _ => None end.

(** The thread-leak detector's teardown fails with an unrelated error. *)
Definition thread_exit_fault (_ : option PyExc) (d : Detector) : option PyExc :=
  match d with ThreadDet _ _ _ => Some (OtherExc 1) | _ => None end.

Definition ev_det (ev : DetEvent) : Detector :=
  match ev with Start d | Stop d => d end.

(** [@pytest.mark.no_leaks("tasks")] and [@pytest.mark.no_leaks]. *)
Definition marker_tasks : Marker := {| margs := [VStr "tasks"]; mkwargs := ∅ |}.
Definition marker_bare : Marker := {| margs := []; mkwargs := ∅ |}.

Definition pyleak_dir : string := "/opt/venv/src/pyleak".

(** A stack as [traceback.extract_stack()] returns it inside
    [find_my_caller], called from a pyleak function invoked by a test. *)
Definition stack9 : list FrameSummary := [
  {| f_filename := "/usr/lib/python3.12/runpy.py"; f_name := "_run_module_as_main"; f_lineno := 198 |};
  {| f_filename := "/home/dev/app/tests/test_app.py"; f_name := "test_app"; f_lineno := 12 |};
  {| f_filename := "/opt/venv/src/pyleak/eventloop.py"; f_name := "__enter__"; f_lineno := 40 |};
  {| f_filename := "/opt/venv/src/pyleak/utils.py"; f_name := "find_my_caller"; f_lineno := 47 |}
].

(** The keys [PyLeakConfig.__init__] reads from [marker_args]. *)
Definition config_keys : list string :=
  ["tasks"; "task_action"; "task_name_filter"; "enable_creation_tracking";
   "threads"; "thread_action"; "thread_name_filter"; "exclude_daemon";
   "blocking"; "blocking_action"; "blocking_threshold"; "blocking_check_interval"].

(** [@pytest.mark.no_leaks(tasks=False, threads=False, blocking=False)]. *)
Definition cfg_none : PyLeakConfig :=
  PyLeakConfig_init (<["tasks" := VBool false]> (<["threads" := VBool false]>
                       (<["blocking" := VBool false]> ∅))).


(** The thread-leak detector reports a leak. *)
Definition thread_leak_only (_ : option PyExc) (d : Detector) : option PyExc :=
  match d with ThreadDet _ _ _ => Some (ThreadLeakError "leaked thread") | _ => None end.


(* ===================================================================== *)
(** ** The combined detector: entry, exit and aggregation                 *)
(* ===================================================================== *)

Ltac split_exits Hown :=
  repeat match goal with
  | |- context [?f ?x (ThreadDet ?a ?b ?c)] =>
      let E := fresh "E" in
      destruct (f x (ThreadDet a b c)) as [e|] eqn:E;
      [pose proof (Hown _ _ _ E); destruct e; try discriminate |]
  | |- context [?f ?x (BlockingDet ?a ?b ?c)] =>
      let E := fresh "E" in
      destruct (f x (BlockingDet a b c)) as [e|] eqn:E;
      [pose proof (Hown _ _ _ E); destruct e; try discriminate |]
  | |- context [?f ?x (TaskDet ?a ?b ?c)] =>
      let E := fresh "E" in
      destruct (f x (TaskDet a b c)) as [e|] eqn:E;
      [pose proof (Hown _ _ _ E); destruct e; try discriminate |]
  end.

(** The whole [async with] statement on a fresh detector, when every
    detector starts and each one's teardown raises at most its own leak
    error. *)
Lemma async_with_result det_enter det_exit c a body :
  (forall d, det_enter d = None) ->
  exits_raise_own det_exit ->
  async_with det_enter det_exit (CLD_init c a) body =
    (match detector_errors det_exit body (started c a) with
     | [] => body_outcome body
     | errs => Propagated (PyleakExceptionGroup (group_msg errs) errs) body
     end,
     (map Start (started c a) ++ map Stop (rev (started c a)))%list).
Proof.
  intros Hen Hown.
  unfold async_with, aenter, aexit, started, detector_errors, CLD_init,
    bind, ret, raise, enter, exit, try_collect.
  cbn -[group_msg truthy]. rewrite ?Hen.
  destruct a, (truthy (detect_tasks c)), (truthy (detect_blocking c)),
    (truthy (detect_threads c)); cbn -[group_msg];
    split_exits Hown; cbn -[group_msg]; destruct body; reflexivity.
Qed.

(** (C3, as stated) A single detector error is not propagated as is: the
    task-leak detector alone reports, and the scope still raises a
    [PyleakExceptionGroup] around that one error. *)
Lemma C3_single_error_is_wrapped :
  detector_errors task_leak_only None (started cfg_all true)
    = [TaskLeakError "leaked task"] /\
  fst (async_with no_enter_fault task_leak_only (CLD_init cfg_all true) None)
    = Propagated (PyleakExceptionGroup (group_msg [TaskLeakError "leaked task"])
                                        [TaskLeakError "leaked task"]) None /\
  fst (async_with no_enter_fault task_leak_only (CLD_init cfg_all true) None)
    <> Propagated (TaskLeakError "leaked task") None.
Proof. vm_compute. split; [reflexivity | split; [reflexivity | discriminate]]. Qed.

(** C3 (amended): at the exit of the [async with] scope, the errors the
    detectors raise are collected in stop order (thread, blocking, task);
    if there is at least one of them -- even exactly one -- the scope raises
    a single [PyleakExceptionGroup] holding all of them unchanged; if there
    is none, the scope ends as its body did. *)
Theorem combined_exit_wraps_all_errors det_enter det_exit c a body :
  (forall d, det_enter d = None) ->
  exits_raise_own det_exit ->
  fst (async_with det_enter det_exit (CLD_init c a) body) =
    match detector_errors det_exit body (started c a) with
    | [] => body_outcome body
    | errs => Propagated (PyleakExceptionGroup (group_msg errs) errs) body
    end.
Proof.
  intros Hen Hown. rewrite (async_with_result det_enter det_exit c a body Hen Hown).
  reflexivity.
Qed.

Lemma combined_exit_wraps_all_errors_witness :
  (forall d, no_enter_fault d = None) /\ exits_raise_own task_leak_only /\
  fst (async_with no_enter_fault task_leak_only (CLD_init cfg_all true) None) =
    match detector_errors task_leak_only None (started cfg_all true) with
    | [] => body_outcome None
    | errs => Propagated (PyleakExceptionGroup (group_msg errs) errs) None
    end.
Proof.
  assert (Hen : forall d, no_enter_fault d = None) by reflexivity.
  assert (Hown : exits_raise_own task_leak_only).
  { intros x d e H. destruct d; cbn in H; inversion H; reflexivity. }
  split; [exact Hen | split; [exact Hown |]].
  exact (combined_exit_wraps_all_errors no_enter_fault task_leak_only cfg_all true None Hen Hown).
Defined.

(** (C4, as stated) The user's exception does not stay the primary error:
    the body raises [OtherExc 0], the task-leak detector reports, and the
    exception leaving the scope is the group, with the user's exception
    only as its implicit context. *)
Lemma C4_user_exception_is_replaced :
  fst (async_with no_enter_fault task_leak_only (CLD_init cfg_all true) (Some (OtherExc 0)))
    = Propagated (PyleakExceptionGroup (group_msg [TaskLeakError "leaked task"])
                                        [TaskLeakError "leaked task"]) (Some (OtherExc 0)) /\
  ~ exists ctx,
      fst (async_with no_enter_fault task_leak_only (CLD_init cfg_all true) (Some (OtherExc 0)))
        = Propagated (OtherExc 0) ctx.
Proof.
  vm_compute. split; [reflexivity |]. intros [ctx H]. discriminate H.
Qed.

(** C4 (amended): when the body raised [x], the scope's outcome is decided
    by the detectors: with no detector error, [x] propagates unchanged;
    with at least one, the [PyleakExceptionGroup] of those errors is the
    exception that propagates, and [x] survives only as its implicit
    context. *)
Theorem combined_exit_user_exception det_enter det_exit c a x :
  (forall d, det_enter d = None) ->
  exits_raise_own det_exit ->
  (detector_errors det_exit (Some x) (started c a) = [] ->
   fst (async_with det_enter det_exit (CLD_init c a) (Some x)) = Propagated x None) /\
  (detector_errors det_exit (Some x) (started c a) <> [] ->
   fst (async_with det_enter det_exit (CLD_init c a) (Some x)) =
     Propagated (PyleakExceptionGroup
                   (group_msg (detector_errors det_exit (Some x) (started c a)))
                   (detector_errors det_exit (Some x) (started c a))) (Some x)).
Proof.
  intros Hen Hown. rewrite (async_with_result det_enter det_exit c a (Some x) Hen Hown).
  cbn [fst]. split; intros H.
  - rewrite H. reflexivity.
  - destruct (detector_errors det_exit (Some x) (started c a)); [congruence | reflexivity].
Qed.

Lemma combined_exit_user_exception_witness :
  (forall d, no_enter_fault d = None) /\ exits_raise_own task_leak_only /\
  fst (async_with no_enter_fault task_leak_only (CLD_init cfg_all true) (Some (OtherExc 0)))
    = Propagated (PyleakExceptionGroup
                   (group_msg (detector_errors task_leak_only (Some (OtherExc 0))
                                 (started cfg_all true)))
                   (detector_errors task_leak_only (Some (OtherExc 0))
                      (started cfg_all true))) (Some (OtherExc 0)).
Proof.
  assert (Hen : forall d, no_enter_fault d = None) by reflexivity.
  assert (Hown : exits_raise_own task_leak_only).
  { intros x d e H. destruct d; cbn in H; inversion H; reflexivity. }
  split; [exact Hen | split; [exact Hown |]].
  apply (combined_exit_user_exception no_enter_fault task_leak_only cfg_all true
           (OtherExc 0) Hen Hown).
  vm_compute. discriminate.
Defined.

(** (C5, as stated) A teardown error that is not the detector's own leak
    error stops the teardown: all three detectors are started, the
    thread-leak detector's [__exit__] raises [OtherExc 1], and the
    blocking and task-leak detectors are never stopped. *)
Lemma C5_teardown_fault_skips_stops :
  length (started cfg_all true) = 3%nat /\
  snd (async_with no_enter_fault thread_exit_fault (CLD_init cfg_all true) None)
    = (map Start (started cfg_all true)
       ++ [Stop (ThreadDet (VStr "raise") VNone (VBool true))])%list.
Proof. vm_compute. split; reflexivity. Qed.

(** C5 (amended): when every detector starts and each detector's
    [__exit__] raises at most its own leak error, every exit of the
    [async with] scope -- normal, or by any exception of the body -- stops
    every started detector, in the reverse of the start order; with
    [is_async] and all three enabled the start order is task-leak,
    blocking, thread-leak. *)
Theorem combined_teardown_reverse_order det_enter det_exit c a body :
  (forall d, det_enter d = None) ->
  exits_raise_own det_exit ->
  snd (async_with det_enter det_exit (CLD_init c a) body) =
    (map Start (started c a) ++ map Stop (rev (started c a)))%list /\
  (a = true -> truthy (detect_tasks c) = true -> truthy (detect_blocking c) = true ->
   truthy (detect_threads c) = true ->
   map det_kind (started c a) = [KTask; KBlocking; KThread]).
Proof.
  intros Hen Hown. split.
  - rewrite (async_with_result det_enter det_exit c a body Hen Hown). reflexivity.
  - intros -> Ht Hb Hth. unfold started. rewrite Ht, Hb, Hth. reflexivity.
Qed.

Lemma combined_teardown_reverse_order_witness :
  (forall d, no_enter_fault d = None) /\ exits_raise_own task_leak_only /\
  snd (async_with no_enter_fault task_leak_only (CLD_init cfg_all true) (Some (OtherExc 0))) =
    (map Start (started cfg_all true) ++ map Stop (rev (started cfg_all true)))%list.
Proof.
  assert (Hen : forall d, no_enter_fault d = None) by reflexivity.
  assert (Hown : exits_raise_own task_leak_only).
  { intros x d e H. destruct d; cbn in H; inversion H; reflexivity. }
  split; [exact Hen | split; [exact Hown |]].
  exact (proj1 (combined_teardown_reverse_order no_enter_fault task_leak_only cfg_all true
                  (Some (OtherExc 0)) Hen Hown)).
Defined.

(** C10: a [CombinedLeakDetector] used as a synchronous [with] scope only
    ever starts and stops a thread-leak detector, whatever its
    configuration and [is_async] flag; and every exception leaving the
    scope is the body's own or one raised by a thread-leak detector. *)
Theorem sync_scope_only_thread_detector det_enter det_exit c a body :
  Forall (fun ev => det_kind (ev_det ev) = KThread)
         (snd (sync_with det_enter det_exit (CLD_init c a) body)) /\
  (forall e ctx,
     fst (sync_with det_enter det_exit (CLD_init c a) body) = Propagated e ctx ->
     body = Some e \/
     exists d, det_kind d = KThread /\ (det_enter d = Some e \/ det_exit body d = Some e)).
Proof.
  unfold sync_with, enter_sync, exit_sync, CLD_init, bind, ret, enter, exit.
  cbn -[truthy].
  destruct (truthy (detect_threads c)); cbn.
  - set (d := ThreadDet (thread_action c) (thread_name_filter c) (exclude_daemon_threads c)).
    destruct (det_enter d) as [e0|] eqn:Een; cbn.
    + split; [repeat constructor |].
      intros e ctx H. inversion H; subst. right. exists d. auto.
    + destruct (det_exit body d) as [e1|] eqn:Eex; cbn.
      * split; [repeat constructor |].
        intros e ctx H. inversion H; subst. right. exists d. auto.
      * split; [repeat constructor |].
        intros e ctx H. destruct body; inversion H; subst; auto.
  - split; [constructor |].
    intros e ctx H. destruct body; inversion H; subst; auto.
Qed.

(* ===================================================================== *)
(** ** The pytest plugin's configuration resolution                       *)
(* ===================================================================== *)

(** C7: for every item carrying a [no_leaks] marker, whatever its
    positional and keyword arguments, [should_monitor_test] raises
    [AttributeError]: it calls [PyLeakConfig.from_marker_args], which the
    class does not define. *)
Theorem should_monitor_test_always_raises (m : Marker) :
  should_monitor_test (Some m) = Raise (AttributeError "from_marker_args").
Proof. reflexivity. Qed.

(** C6: for [no_leaks("tasks")] and for a bare [no_leaks],
    [should_monitor_test] raises instead of returning a configuration; and
    the [marker_args] it builds for [no_leaks("tasks")], passed to
    [PyLeakConfig(...)], would enable all three detectors, since the
    detectors left unnamed default to enabled. *)
Theorem marker_flags_do_not_select :
  should_monitor_test (Some marker_tasks) = Raise (AttributeError "from_marker_args") /\
  should_monitor_test (Some marker_bare) = Raise (AttributeError "from_marker_args") /\
  map truthy [detect_tasks (PyLeakConfig_init (resolve_marker_args marker_tasks));
              detect_threads (PyLeakConfig_init (resolve_marker_args marker_tasks));
              detect_blocking (PyLeakConfig_init (resolve_marker_args marker_tasks))]
    = [true; true; true].
Proof. vm_compute. repeat split. Qed.

(* ===================================================================== *)
(** ** The caller-context resolver                                        *)
(* ===================================================================== *)

Lemma py_index_from_end {A} (xs : list A) (k : Z) :
  (1 <= k)%Z -> (k < Z.of_nat (length xs))%Z ->
  exists x, xs !! (length xs - Z.to_nat k - 1)%nat = Some x /\ py_index xs (- k - 1) = Ok x.
Proof.
  intros H1 H2. unfold py_index.
  destruct (lookup_lt_is_Some_2 xs (length xs - Z.to_nat k - 1)%nat) as [x Hx]; [lia |].
  exists x. split; [exact Hx |].
  replace (- k - 1 <? 0)%Z with true by (symmetry; apply Z.ltb_lt; lia).
  replace ((0 <=? Z.of_nat (length xs) + (- k - 1))%Z
           && (Z.of_nat (length xs) + (- k - 1) <? Z.of_nat (length xs))%Z) with true
    by (symmetry; apply andb_true_iff; split; [apply Z.leb_le | apply Z.ltb_lt]; lia).
  replace (Z.to_nat (Z.of_nat (length xs) + (- k - 1))) with (length xs - Z.to_nat k - 1)%nat
    by lia.
  rewrite Hx. reflexivity.
Qed.

Lemma py_slice_drop_last {A} (xs : list A) (k : Z) :
  (1 <= k)%Z -> (k < Z.of_nat (length xs))%Z ->
  py_slice_upto xs (- k) = take (length xs - Z.to_nat k) xs.
Proof.
  intros H1 H2. unfold py_slice_upto.
  replace (- k <? 0)%Z with true by (symmetry; apply Z.ltb_lt; lia).
  f_equal. lia.
Qed.

(** (C9, as stated) The related files are not all the filenames on the
    stack: the standard-library file and pyleak's own files on [stack9]
    are left out, and only the test file remains. *)
Lemma C9_related_files_filtered :
  exists cc files,
    find_my_caller pyleak_dir stack9 2 = Ok cc /\ cc_files cc = Some files /\
    "/usr/lib/python3.12/runpy.py" ∈ map f_filename stack9 /\
    ("/usr/lib/python3.12/runpy.py" ∉ files) /\
    files = {[ "/home/dev/app/tests/test_app.py" ]}.
Proof.
  eexists _, {[ "/home/dev/app/tests/test_app.py" ]}.
  split; [reflexivity |]. split; [vm_compute; reflexivity |].
  split; [cbn; set_solver |]. split; [| reflexivity].
  rewrite elem_of_singleton. discriminate.
Qed.

(** C9 (amended): for [ignore_frames = k] with [1 <= k] and a stack of
    more than [k] frames, [find_my_caller] attributes to the frame [k]
    places before the innermost one, and its related-files set holds
    exactly the filenames of the stack's frames other than the [k]
    innermost ones that are user files: containing neither
    ["site-packages"] nor ["lib/python"], and not starting with pyleak's
    own source directory. *)
Theorem find_my_caller_related_files (src_dir : string) (stack : list FrameSummary) (k : Z) :
  (1 <= k)%Z -> (k < Z.of_nat (length stack))%Z ->
  exists frame files,
    stack !! (length stack - Z.to_nat k - 1)%nat = Some frame /\
    find_my_caller src_dir stack k =
      Ok {| cc_filename := f_filename frame; cc_name := f_name frame;
            cc_lineno := Some (f_lineno frame); cc_files := Some files |} /\
    forall fn, fn ∈ files <->
      ((exists i f, stack !! i = Some f /\ (i < length stack - Z.to_nat k)%nat /\
                   f_filename f = fn) /\
      str_contains "site-packages" fn = false /\
      str_contains "lib/python" fn = false /\
      String.prefix src_dir fn = false).
Proof.
  intros H1 H2.
  destruct (py_index_from_end stack k H1 H2) as (frame & Hl & Hi).
  eexists frame, _. split; [exact Hl |]. split.
  - unfold find_my_caller. replace (- k - 1)%Z with (- k - 1)%Z by lia.
    rewrite Hi. reflexivity.
  - intros fn. rewrite (py_slice_drop_last stack k H1 H2).
    rewrite elem_of_list_to_set, list_elem_of_In, in_map_iff.
    split.
    + intros (f & <- & Hin). apply list_elem_of_In, list_elem_of_filter in Hin.
      destruct Hin as [Hu Hin]. apply list_elem_of_lookup in Hin as [i Hi'].
      rewrite lookup_take_Some in Hi'. destruct Hi' as [Hi' Hlt].
      unfold _is_user_file in Hu.
      destruct (str_contains "site-packages" (f_filename f)),
               (str_contains "lib/python" (f_filename f)),
               (String.prefix src_dir (f_filename f)); try discriminate.
      split; [exists i, f; auto | auto].
    + intros ((i & f & Hf & Hlt & <-) & Hs & Hp & Hd).
      exists f. split; [reflexivity |]. apply list_elem_of_In, list_elem_of_filter.
      split.
      * unfold _is_user_file. rewrite Hs, Hp, Hd. reflexivity.
      * apply list_elem_of_lookup. exists i. apply lookup_take_Some. auto.
Qed.

Lemma find_my_caller_related_files_witness :
  (1 <= 2)%Z /\ (2 < Z.of_nat (length stack9))%Z /\
  exists frame files,
    stack9 !! (length stack9 - Z.to_nat 2 - 1)%nat = Some frame /\
    find_my_caller pyleak_dir stack9 2 =
      Ok {| cc_filename := f_filename frame; cc_name := f_name frame;
            cc_lineno := Some (f_lineno frame); cc_files := Some files |} /\
    forall fn, fn ∈ files <->
      ((exists i f, stack9 !! i = Some f /\ (i < length stack9 - Z.to_nat 2)%nat /\
                   f_filename f = fn) /\
      str_contains "site-packages" fn = false /\
      str_contains "lib/python" fn = false /\
      String.prefix pyleak_dir fn = false).
Proof.
  assert (H1 : (1 <= 2)%Z) by lia.
  assert (H2 : (2 < Z.of_nat (length stack9))%Z) by (vm_compute; reflexivity).
  split; [exact H1 | split; [exact H2 |]].
  exact (find_my_caller_related_files pyleak_dir stack9 2 H1 H2).
Defined.

(* ===================================================================== *)
(** ** The heartbeat of the blocking detector                             *)
(* ===================================================================== *)

Section Heartbeat.
Variables (ci th s d e : Z) (captured : list FrameSummary).
Hypothesis Hci : (0 < ci)%Z.
Hypothesis Hth : (0 <= th)%Z.

Local Abbreviation hb := (heartbeat ci th s d e captured).

(** Once the block is over, no wake-up is late. *)
Lemma heartbeat_after_block fuel w id :
  (s + d <= w)%Z -> hb fuel w id = [].
Proof.
  revert w id. induction fuel as [|fuel IH]; intros w id Hw; cbn; [reflexivity |].
  destruct (e <=? w + ci)%Z; [reflexivity |].
  replace ((s <=? w + ci)%Z && (w + ci <? s + d)%Z) with false
    by (symmetry; apply andb_false_iff; right; apply Z.ltb_ge; lia).
  replace (th <? w + ci - w - ci)%Z with false by (symmetry; apply Z.ltb_ge; lia).
  apply IH. lia.
Qed.

(** A block no longer than the threshold is never reported. *)
Lemma heartbeat_short_block fuel w id :
  (d <= th)%Z -> hb fuel w id = [].
Proof.
  intros Hd. revert w id. induction fuel as [|fuel IH]; intros w id; cbn; [reflexivity |].
  destruct (e <=? w + ci)%Z; [reflexivity |].
  destruct ((s <=? w + ci)%Z && (w + ci <? s + d)%Z) eqn:Hcov.
  - apply andb_true_iff in Hcov as [H1 H2]. apply Z.leb_le in H1.
    replace (th <? s + d - w - ci)%Z with false by (symmetry; apply Z.ltb_ge; lia).
    apply IH.
  - replace (th <? w + ci - w - ci)%Z with false by (symmetry; apply Z.ltb_ge; lia).
    apply IH.
Qed.

(** Before the block, the heartbeat reports at most one stall, whose
    duration lies in [(d - ci, d]]. *)
Lemma heartbeat_at_most_one fuel w id :
  (w < s)%Z ->
  hb fuel w id = [] \/
  exists ev, hb fuel w id = [ev] /\ block_id ev = id /\ timestamp ev = (s + d)%Z /\
             (d - ci < duration ev <= d)%Z.
Proof.
  revert w. induction fuel as [|fuel IH]; intros w Hw; cbn; [left; reflexivity |].
  destruct (e <=? w + ci)%Z; [left; reflexivity |].
  destruct ((s <=? w + ci)%Z && (w + ci <? s + d)%Z) eqn:Hcov.
  - apply andb_true_iff in Hcov as [H1 H2]. apply Z.leb_le in H1. apply Z.ltb_lt in H2.
    rewrite (heartbeat_after_block fuel (s + d) (S id)) by lia.
    rewrite (heartbeat_after_block fuel (s + d) id) by lia.
    destruct (th <? s + d - w - ci)%Z; [right | left; reflexivity].
    eexists. split; [reflexivity |]. cbn. lia.
  - destruct (Z.lt_ge_cases (w + ci) s) as [Hlt | Hge].
    + replace (th <? w + ci - w - ci)%Z with false by (symmetry; apply Z.ltb_ge; lia).
      apply IH. exact Hlt.
    + apply andb_false_iff in Hcov as [Hc | Hc]; [apply Z.leb_gt in Hc; lia |].
      apply Z.ltb_ge in Hc.
      replace (th <? w + ci - w - ci)%Z with false by (symmetry; apply Z.ltb_ge; lia).
      left. apply heartbeat_after_block. lia.
Qed.

(** A block longer than the threshold plus one interval is reported,
    once, provided the heartbeat gets to wake up while the block lasts. *)
Lemma heartbeat_long_block fuel w id :
  (th + ci < d)%Z -> (w < s)%Z -> (s + d <= e)%Z -> (Z.to_nat (s - w) < fuel)%nat ->
  exists ev, hb fuel w id = [ev] /\ block_id ev = id /\ timestamp ev = (s + d)%Z /\
             (d - ci < duration ev <= d)%Z.
Proof.
  intros Hd. revert w. induction fuel as [|fuel IH]; intros w Hw He Hf; [lia |].
  cbn.
  replace (e <=? w + ci)%Z with false by (symmetry; apply Z.leb_gt; lia).
  destruct (Z.lt_ge_cases (w + ci) s) as [Hlt | Hge].
  - replace ((s <=? w + ci)%Z && (w + ci <? s + d)%Z) with false
      by (symmetry; apply andb_false_iff; left; apply Z.leb_gt; lia).
    replace (th <? w + ci - w - ci)%Z with false by (symmetry; apply Z.ltb_ge; lia).
    apply IH; [lia | lia | lia].
  - replace ((s <=? w + ci)%Z && (w + ci <? s + d)%Z) with true
      by (symmetry; apply andb_true_iff; split; [apply Z.leb_le | apply Z.ltb_lt]; lia).
    replace (th <? s + d - w - ci)%Z with true by (symmetry; apply Z.ltb_lt; lia).
    rewrite (heartbeat_after_block fuel (s + d) (S id)) by lia.
    eexists. split; [reflexivity |]. cbn. lia.
Qed.

End Heartbeat.

(** (C2, as stated) A block longer than the threshold can go unreported:
    with [check_interval = 10], [threshold = 100], the heartbeat starting
    at 0 and a 105-tick block starting at tick 1, the heartbeat resumes
    at 106 after a delay of 106, whose excess 96 is below the threshold. *)
Lemma C2_block_over_threshold_unreported :
  (105 > 100)%Z /\ blocking_events 10 100 0 1 105 1000 [] = [].
Proof. split; [lia | vm_compute; reflexivity]. Qed.

(** C2 (amended): a synchronous block of [d] ticks inside the scope is
    reported at most once, and any report has a duration in
    [(d - check_interval, d]]; a block with [d <= threshold] is never
    reported; a block with [d > threshold + check_interval] is reported
    exactly once, as the event with [block_id] 1. *)
Theorem blocking_event_count_and_duration (ci th w0 s d e : Z) (captured : list FrameSummary) :
  (0 < ci)%Z -> (0 <= th)%Z -> (0 < d)%Z -> (w0 < s)%Z -> (s + d <= e)%Z ->
  (length (blocking_events ci th w0 s d e captured) <= 1)%nat /\
  Forall (fun ev => d - ci < duration ev <= d)%Z (blocking_events ci th w0 s d e captured) /\
  ((d <= th)%Z -> blocking_events ci th w0 s d e captured = []) /\
  ((th + ci < d)%Z ->
   exists ev, blocking_events ci th w0 s d e captured = [ev] /\ block_id ev = 1%nat /\
              (d - ci < duration ev <= d)%Z).
Proof.
  intros Hci Hth Hd Hw He. unfold blocking_events. split; [| split; [| split]].
  - destruct (heartbeat_at_most_one ci th s d e captured Hci Hth
                (S (Z.to_nat (e - w0))) w0 1 Hw) as [-> | (ev & -> & _)];
      cbn; lia.
  - destruct (heartbeat_at_most_one ci th s d e captured Hci Hth
                (S (Z.to_nat (e - w0))) w0 1 Hw) as [-> | (ev & -> & _ & _ & Hb)];
      repeat constructor; lia.
  - intros Hle. apply heartbeat_short_block; assumption.
  - intros Hlong.
    destruct (heartbeat_long_block ci th s d e captured Hci Hth
                (S (Z.to_nat (e - w0))) w0 1 Hlong Hw He) as (ev & Hev & Hid & _ & Hb);
      [lia |].
    exists ev. auto.
Qed.

Lemma blocking_event_count_and_duration_witness :
  (0 < 10)%Z /\ (0 <= 100)%Z /\ (0 < 500)%Z /\ (0 < 1)%Z /\ (1 + 500 <= 1000)%Z /\
  (length (blocking_events 10 100 0 1 500 1000 []) <= 1)%nat /\
  Forall (fun ev => 500 - 10 < duration ev <= 500)%Z (blocking_events 10 100 0 1 500 1000 []) /\
  ((500 <= 100)%Z -> blocking_events 10 100 0 1 500 1000 [] = []) /\
  ((100 + 10 < 500)%Z ->
   exists ev, blocking_events 10 100 0 1 500 1000 [] = [ev] /\ block_id ev = 1%nat /\
              (500 - 10 < duration ev <= 500)%Z).
Proof.
  assert (H1 : (0 < 10)%Z) by lia. assert (H2 : (0 <= 100)%Z) by lia.
  assert (H3 : (0 < 500)%Z) by lia. assert (H4 : (0 < 1)%Z) by lia.
  assert (H5 : (1 + 500 <= 1000)%Z) by lia.
  repeat (split; [assumption |]).
  exact (blocking_event_count_and_duration 10 100 0 1 500 1000 [] H1 H2 H3 H4 H5).
Defined.

(** C8: once at least one event was recorded, the [warn] action emits
    one notice per event (its duration and stack, in order), then one
    summary with the event count, then one notice naming the origin and
    the first offending line, and raises nothing; the [raise] action
    raises the typed error carrying all the events, in order, and emits
    no notice.  Under either action exactly one of the two happens. *)
Theorem blocking_warn_or_raise (origin : CallerContext) (events : list BlockingEvent) :
  events <> [] ->
  warnings (blocking_dispatch "warn" origin events) =
    (map (fun ev => NBlocked (duration ev) (stack ev)) events
     ++ [NSummary (length events); NOrigin origin (offending_line events)])%list /\
  length (warnings (blocking_dispatch "warn" origin events)) = (length events + 2)%nat /\
  raised (blocking_dispatch "warn" origin events) = None /\
  raised (blocking_dispatch "raise" origin events) = Some events /\
  warnings (blocking_dispatch "raise" origin events) = [].
Proof.
  intros Hne. destruct events as [|ev evs]; [congruence |].
  cbn -[map length]. repeat split.
  rewrite length_app, length_map. cbn. lia.
Qed.

Lemma blocking_warn_or_raise_witness :
  exists origin events,
  events <> [] /\
  warnings (blocking_dispatch "warn" origin events) =
    (map (fun ev => NBlocked (duration ev) (stack ev)) events
     ++ [NSummary (length events); NOrigin origin (offending_line events)])%list /\
  length (warnings (blocking_dispatch "warn" origin events)) = (length events + 2)%nat /\
  raised (blocking_dispatch "warn" origin events) = None /\
  raised (blocking_dispatch "raise" origin events) = Some events /\
  warnings (blocking_dispatch "raise" origin events) = [].
Proof.
  set (origin := {| cc_filename := "/home/dev/app/tests/test_app.py"; cc_name := "test_app";
                    cc_lineno := Some 12%Z; cc_files := None |}).
  set (events := blocking_events 10 100 0 1 500 1000 stack9).
  exists origin, events.
  assert (Hne : events <> []) by (vm_compute; discriminate).
  split; [exact Hne |].
  exact (blocking_warn_or_raise origin events Hne).
Defined.

(* ===================================================================== *)
(** ** Configuration resolution                                           *)
(* ===================================================================== *)

(** A marker argument that is not one of the twelve configuration keys is
    silently ignored by [PyLeakConfig.__init__]. *)
Theorem config_ignores_unknown_keys (m : pydict) (k : string) (v : PyVal) :
  k ∉ config_keys -> PyLeakConfig_init (<[k := v]> m) = PyLeakConfig_init m.
Proof.
  intros Hk. unfold config_keys in Hk.
  repeat rewrite elem_of_cons in Hk. rewrite elem_of_nil in Hk.
  unfold PyLeakConfig_init, dict_get.
  rewrite !lookup_insert_ne by (intros ->; tauto). reflexivity.
Qed.

Lemma config_ignores_unknown_keys_witness :
  ("threshold" ∉ config_keys) /\
  PyLeakConfig_init (<["threshold" := VFloat (1 # 2)]> ∅) = PyLeakConfig_init ∅.
Proof.
  assert (Hk : "threshold" ∉ config_keys) by (unfold config_keys; set_solver).
  split; [exact Hk |]. exact (config_ignores_unknown_keys ∅ "threshold" (VFloat (1 # 2)) Hk).
Defined.

(** Keyword arguments of the marker take precedence over its positional
    flags: every keyword reaches [marker_args] with its own value. *)
Theorem marker_kwargs_override_flags (m : Marker) (k : string) (v : PyVal) :
  mkwargs m !! k = Some v -> resolve_marker_args m !! k = Some v.
Proof.
  intros Hk. unfold resolve_marker_args, dict_update.
  destruct (decide (mkwargs m = ∅)) as [E | _].
  { rewrite E, lookup_empty in Hk. discriminate. }
  assert (Hl : (mkwargs m ∪ foldl apply_flag ∅ (margs m)) !! k = Some v)
    by (apply lookup_union_Some_l; exact Hk).
  destruct (decide (mkwargs m ∪ foldl apply_flag ∅ (margs m) = ∅)) as [E | _].
  - rewrite E, lookup_empty in Hl. discriminate.
  - exact Hl.
Qed.

Lemma marker_kwargs_override_flags_witness :
  mkwargs {| margs := [VStr "tasks"]; mkwargs := {[ "tasks" := VBool false ]} |} !! "tasks"
    = Some (VBool false) /\
  resolve_marker_args {| margs := [VStr "tasks"]; mkwargs := {[ "tasks" := VBool false ]} |}
    !! "tasks" = Some (VBool false).
Proof.
  assert (H : mkwargs {| margs := [VStr "tasks"]; mkwargs := {[ "tasks" := VBool false ]} |}
                !! "tasks" = Some (VBool false)) by reflexivity.
  split; [exact H |]. exact (marker_kwargs_override_flags _ "tasks" (VBool false) H).
Defined.

Lemma apply_flag_all_true (acc : pydict) (arg : PyVal) :
  map_Forall (fun _ v => v = VBool true) acc ->
  map_Forall (fun _ v => v = VBool true) (apply_flag acc arg).
Proof.
  intros H. unfold apply_flag, dict_update.
  repeat case_match; subst;
    try (apply map_Forall_insert_2; [reflexivity | assumption]);
    try assumption.
  all: apply map_Forall_union_2; [| assumption];
       repeat (apply map_Forall_insert_2; [reflexivity |]); apply map_Forall_empty.
Qed.

Lemma foldl_apply_flag_all_true (args : list PyVal) (acc : pydict) :
  map_Forall (fun _ v => v = VBool true) acc ->
  map_Forall (fun _ v => v = VBool true) (foldl apply_flag acc args).
Proof.
  revert acc. induction args as [|a args IH]; intros acc H; cbn; [exact H |].
  apply IH, apply_flag_all_true, H.
Qed.

(** Positional flags can only enable detectors: for a marker without
    keyword arguments, whatever its positional arguments, the resolved
    [marker_args] hold only [True] values, and the configuration built
    from them enables all three detectors. *)
Theorem marker_without_kwargs_enables_all (m : Marker) :
  mkwargs m = ∅ ->
  map_Forall (fun _ v => v = VBool true) (resolve_marker_args m) /\
  truthy (detect_tasks (PyLeakConfig_init (resolve_marker_args m))) = true /\
  truthy (detect_threads (PyLeakConfig_init (resolve_marker_args m))) = true /\
  truthy (detect_blocking (PyLeakConfig_init (resolve_marker_args m))) = true.
Proof.
  intros Hk.
  assert (HF : map_Forall (fun _ v => v = VBool true) (resolve_marker_args m)).
  { unfold resolve_marker_args. rewrite Hk.
    destruct (decide (∅ = ∅)) as [_ | C]; [| congruence].
    destruct (decide (foldl apply_flag ∅ (margs m) = ∅)).
    - repeat (apply map_Forall_insert_2; [reflexivity |]). apply map_Forall_empty.
    - apply foldl_apply_flag_all_true, map_Forall_empty. }
  split; [exact HF |].
  unfold PyLeakConfig_init, dict_get; cbn [detect_tasks detect_threads detect_blocking].
  repeat split;
    match goal with
    | |- context [resolve_marker_args m !! ?k] =>
        destruct (resolve_marker_args m !! k) eqn:E; [rewrite (HF _ _ E) |]; reflexivity
    end.
Qed.

Lemma marker_without_kwargs_enables_all_witness :
  mkwargs {| margs := [VStr "threads"; VStr "unknown"]; mkwargs := ∅ |} = ∅ /\
  map_Forall (fun _ v => v = VBool true)
    (resolve_marker_args {| margs := [VStr "threads"; VStr "unknown"]; mkwargs := ∅ |}) /\
  truthy (detect_tasks (PyLeakConfig_init
    (resolve_marker_args {| margs := [VStr "threads"; VStr "unknown"]; mkwargs := ∅ |}))) = true /\
  truthy (detect_threads (PyLeakConfig_init
    (resolve_marker_args {| margs := [VStr "threads"; VStr "unknown"]; mkwargs := ∅ |}))) = true /\
  truthy (detect_blocking (PyLeakConfig_init
    (resolve_marker_args {| margs := [VStr "threads"; VStr "unknown"]; mkwargs := ∅ |}))) = true.
Proof.
  assert (H : mkwargs {| margs := [VStr "threads"; VStr "unknown"]; mkwargs := ∅ |} = ∅)
    by reflexivity.
  split; [exact H |]. exact (marker_without_kwargs_enables_all _ H).
Defined.

(* ===================================================================== *)
(** ** More on the combined detector                                      *)
(* ===================================================================== *)

Ltac run_scope :=
  unfold async_with, aenter, aexit, sync_with, enter_sync, exit_sync, CLD_init,
    bind, ret, raise, enter, exit, try_collect;
  cbn -[truthy group_msg].

(** An [async with] on a detector built with [is_async=False] starts and
    stops nothing but the thread-leak detector, whatever its
    configuration and whatever the detectors do. *)
Theorem async_scope_not_async_only_threads det_enter det_exit c body :
  Forall (fun ev => det_kind (ev_det ev) = KThread)
         (snd (async_with det_enter det_exit (CLD_init c false) body)).
Proof.
  run_scope. destruct (truthy (detect_threads c)); cbn -[group_msg]; [| constructor].
  set (d := ThreadDet (thread_action c) (thread_name_filter c) (exclude_daemon_threads c)).
  destruct (det_enter d); cbn -[group_msg]; [repeat constructor |].
  destruct (det_exit body d) as [e|]; cbn -[group_msg];
    [destruct (is_ThreadLeakError e); cbn -[group_msg] |]; repeat constructor.
Qed.

(** With every detector disabled the scope is transparent: nothing is
    started or stopped, and it ends exactly as its body did. *)
Theorem disabled_scope_transparent det_enter det_exit c a body :
  truthy (detect_tasks c) = false -> truthy (detect_blocking c) = false ->
  truthy (detect_threads c) = false ->
  async_with det_enter det_exit (CLD_init c a) body = (body_outcome body, []).
Proof.
  intros Ht Hb Hth. run_scope. rewrite Ht, Hb, Hth, !andb_false_r. cbn.
  destruct body; reflexivity.
Qed.

Lemma disabled_scope_transparent_witness :
  truthy (detect_tasks cfg_none) = false /\ truthy (detect_blocking cfg_none) = false /\
  truthy (detect_threads cfg_none) = false /\
  async_with no_enter_fault task_leak_only (CLD_init cfg_none true) (Some (OtherExc 0))
    = (body_outcome (Some (OtherExc 0)), []).
Proof.
  assert (H1 : truthy (detect_tasks cfg_none) = false) by reflexivity.
  assert (H2 : truthy (detect_blocking cfg_none) = false) by reflexivity.
  assert (H3 : truthy (detect_threads cfg_none) = false) by reflexivity.
  split; [exact H1 | split; [exact H2 | split; [exact H3 |]]].
  exact (disabled_scope_transparent no_enter_fault task_leak_only cfg_none true
           (Some (OtherExc 0)) H1 H2 H3).
Defined.

(** In a synchronous scope the thread-leak detector's error is not
    wrapped: it leaves the scope as is, not inside a
    [PyleakExceptionGroup]. *)
Theorem sync_scope_error_unwrapped det_enter det_exit c a body e :
  truthy (detect_threads c) = true ->
  det_enter (ThreadDet (thread_action c) (thread_name_filter c) (exclude_daemon_threads c)) = None ->
  det_exit body (ThreadDet (thread_action c) (thread_name_filter c) (exclude_daemon_threads c))
    = Some e ->
  fst (sync_with det_enter det_exit (CLD_init c a) body) = Propagated e body.
Proof.
  intros Hth Hen Hex. run_scope. rewrite Hth. cbn. rewrite Hen. cbn. rewrite Hex.
  reflexivity.
Qed.

Lemma sync_scope_error_unwrapped_witness :
  truthy (detect_threads cfg_all) = true /\
  no_enter_fault (ThreadDet (thread_action cfg_all) (thread_name_filter cfg_all)
                            (exclude_daemon_threads cfg_all)) = None /\
  thread_leak_only None (ThreadDet (thread_action cfg_all) (thread_name_filter cfg_all)
                                   (exclude_daemon_threads cfg_all))
    = Some (ThreadLeakError "leaked thread") /\
  fst (sync_with no_enter_fault thread_leak_only (CLD_init cfg_all false) None)
    = Propagated (ThreadLeakError "leaked thread") None.
Proof.
  assert (H1 : truthy (detect_threads cfg_all) = true) by reflexivity.
  assert (H2 : no_enter_fault (ThreadDet (thread_action cfg_all) (thread_name_filter cfg_all)
                                          (exclude_daemon_threads cfg_all)) = None)
    by reflexivity.
  assert (H3 : thread_leak_only None (ThreadDet (thread_action cfg_all)
                 (thread_name_filter cfg_all) (exclude_daemon_threads cfg_all))
               = Some (ThreadLeakError "leaked thread")) by reflexivity.
  split; [exact H1 | split; [exact H2 | split; [exact H3 |]]].
  exact (sync_scope_error_unwrapped no_enter_fault thread_leak_only cfg_all false None
           (ThreadLeakError "leaked thread") H1 H2 H3).
Defined.




(** An error from the thread-leak detector's [__exit__] that is not a
    [ThreadLeakError] escapes [__aexit__] at once and unwrapped: the
    blocking and task-leak detectors are not stopped. *)
Theorem foreign_exit_error_escapes det_enter det_exit c a body e :
  (forall d, det_enter d = None) ->
  truthy (detect_threads c) = true ->
  det_exit body (ThreadDet (thread_action c) (thread_name_filter c) (exclude_daemon_threads c))
    = Some e ->
  is_ThreadLeakError e = false ->
  async_with det_enter det_exit (CLD_init c a) body =
    (Propagated e body,
     (map Start (started c a)
      ++ [Stop (ThreadDet (thread_action c) (thread_name_filter c)
                          (exclude_daemon_threads c))])%list).
Proof.
  intros Hen Hth Hex Hnot. run_scope. rewrite ?Hen. unfold started. rewrite Hth.
  destruct a, (truthy (detect_tasks c)), (truthy (detect_blocking c)); cbn -[group_msg];
    rewrite ?Hen; cbn -[group_msg]; rewrite Hex; cbn; rewrite Hnot; reflexivity.
Qed.

Lemma foreign_exit_error_escapes_witness :
  (forall d, no_enter_fault d = None) /\ truthy (detect_threads cfg_all) = true /\
  thread_exit_fault None (ThreadDet (thread_action cfg_all) (thread_name_filter cfg_all)
                                    (exclude_daemon_threads cfg_all)) = Some (OtherExc 1) /\
  is_ThreadLeakError (OtherExc 1) = false /\
  async_with no_enter_fault thread_exit_fault (CLD_init cfg_all true) None =
    (Propagated (OtherExc 1) None,
     (map Start (started cfg_all true)
      ++ [Stop (ThreadDet (thread_action cfg_all) (thread_name_filter cfg_all)
                          (exclude_daemon_threads cfg_all))])%list).
Proof.
  assert (H1 : forall d, no_enter_fault d = None) by reflexivity.
  assert (H2 : truthy (detect_threads cfg_all) = true) by reflexivity.
  assert (H3 : thread_exit_fault None (ThreadDet (thread_action cfg_all)
                 (thread_name_filter cfg_all) (exclude_daemon_threads cfg_all))
               = Some (OtherExc 1)) by reflexivity.
  assert (H4 : is_ThreadLeakError (OtherExc 1) = false) by reflexivity.
  split; [exact H1 | split; [exact H2 | split; [exact H3 | split; [exact H4 |]]]].
  exact (foreign_exit_error_escapes no_enter_fault thread_exit_fault cfg_all true None
           (OtherExc 1) H1 H2 H3 H4).
Defined.

(* ===================================================================== *)
(** ** More on the caller-context resolver                                *)
(* ===================================================================== *)

(** For [ignore_frames >= 0], [find_my_caller] raises [IndexError]
    exactly when the stack has no more than [ignore_frames] frames, and
    returns a context otherwise. *)
Theorem find_my_caller_index_error (src_dir : string) (stack : list FrameSummary) (k : Z) :
  (0 <= k)%Z ->
  ((Z.of_nat (length stack) <= k)%Z -> find_my_caller src_dir stack k = Raise IndexError) /\
  ((k < Z.of_nat (length stack))%Z -> exists cc, find_my_caller src_dir stack k = Ok cc).
Proof.
  intros Hk. unfold find_my_caller, py_index.
  replace (- k - 1 <? 0)%Z with true by (symmetry; apply Z.ltb_lt; lia).
  split; intros Hl.
  - replace (0 <=? Z.of_nat (length stack) + (- k - 1))%Z with false
      by (symmetry; apply Z.leb_gt; lia).
    reflexivity.
  - replace ((0 <=? Z.of_nat (length stack) + (- k - 1))%Z
             && (Z.of_nat (length stack) + (- k - 1) <? Z.of_nat (length stack))%Z) with true
      by (symmetry; apply andb_true_iff; split; [apply Z.leb_le | apply Z.ltb_lt]; lia).
    destruct (lookup_lt_is_Some_2 stack (Z.to_nat (Z.of_nat (length stack) + (- k - 1))))
      as [x Hx]; [lia |].
    rewrite Hx. eexists. reflexivity.
Qed.

Lemma find_my_caller_index_error_witness :
  (0 <= 4)%Z /\
  ((Z.of_nat (length stack9) <= 4)%Z -> find_my_caller pyleak_dir stack9 4 = Raise IndexError) /\
  ((4 < Z.of_nat (length stack9))%Z -> exists cc, find_my_caller pyleak_dir stack9 4 = Ok cc).
Proof.
  assert (H : (0 <= 4)%Z) by lia.
  split; [exact H |]. exact (find_my_caller_index_error pyleak_dir stack9 4 H).
Defined.

(** With [ignore_frames=0] the resolver attributes to the innermost frame
    (the one of [find_my_caller] itself) and, since [stack[:-0]] is
    empty, its related-files set is empty. *)
Theorem find_my_caller_zero_ignore (src_dir : string) (stack : list FrameSummary) :
  stack <> [] ->
  exists frame, last stack = Some frame /\
    find_my_caller src_dir stack 0 =
      Ok {| cc_filename := f_filename frame; cc_name := f_name frame;
            cc_lineno := Some (f_lineno frame); cc_files := Some ∅ |}.
Proof.
  intros Hne.
  destruct (lookup_lt_is_Some_2 stack (pred (length stack))) as [x Hx].
  { destruct stack; [congruence | cbn; lia]. }
  exists x. split; [rewrite last_lookup; exact Hx |].
  unfold find_my_caller, py_index, py_slice_upto.
  assert (Hl : (0 < Z.of_nat (length stack))%Z) by (destruct stack; [congruence | cbn; lia]).
  replace (- 0 - 1 <? 0)%Z with true by reflexivity.
  replace ((0 <=? Z.of_nat (length stack) + (- 0 - 1))%Z
           && (Z.of_nat (length stack) + (- 0 - 1) <? Z.of_nat (length stack))%Z) with true
    by (symmetry; apply andb_true_iff; split; [apply Z.leb_le | apply Z.ltb_lt]; lia).
  replace (Z.to_nat (Z.of_nat (length stack) + (- 0 - 1))) with (pred (length stack)) by lia.
  rewrite Hx.
  replace (- 0 <? 0)%Z with false by reflexivity.
  replace (Z.to_nat (Z.min (- 0) (Z.of_nat (length stack)))) with 0%nat by lia.
  rewrite take_0. reflexivity.
Qed.

Lemma find_my_caller_zero_ignore_witness :
  stack9 <> [] /\
  exists frame, last stack9 = Some frame /\
    find_my_caller pyleak_dir stack9 0 =
      Ok {| cc_filename := f_filename frame; cc_name := f_name frame;
            cc_lineno := Some (f_lineno frame); cc_files := Some ∅ |}.
Proof.
  assert (H : stack9 <> []) by discriminate.
  split; [exact H |]. exact (find_my_caller_zero_ignore pyleak_dir stack9 H).
Defined.

(** Whatever [ignore_frames] is, every related file the resolver reports
    is the filename of a frame on the stack and a user file: it contains
    neither ["site-packages"] nor ["lib/python"] and is not under pyleak's
    own source directory. *)
Theorem find_my_caller_files_are_user_files (src_dir : string) (stack : list FrameSummary)
  (k : Z) (cc : CallerContext) :
  find_my_caller src_dir stack k = Ok cc ->
  exists files, cc_files cc = Some files /\
    forall fn, fn ∈ files ->
      fn ∈ map f_filename stack /\
      str_contains "site-packages" fn = false /\ str_contains "lib/python" fn = false /\
      String.prefix src_dir fn = false.
Proof.
  unfold find_my_caller. destruct (py_index stack (- k - 1)) as [frame|]; [| discriminate].
  intros H. injection H as <-. eexists. split; [reflexivity |].
  intros fn Hfn.
  rewrite elem_of_list_to_set, list_elem_of_In, in_map_iff in Hfn.
  destruct Hfn as (f & <- & Hin).
  apply list_elem_of_In, list_elem_of_filter in Hin as [Hu Hin].
  unfold py_slice_upto in Hin. apply elem_of_take in Hin as (i & Hi & _).
  unfold _is_user_file in Hu.
  split.
  - apply list_elem_of_In, in_map, list_elem_of_In. eapply list_elem_of_lookup_2. exact Hi.
  - destruct (str_contains "site-packages" (f_filename f)),
             (str_contains "lib/python" (f_filename f)),
             (String.prefix src_dir (f_filename f)); try discriminate; auto.
Qed.

Lemma find_my_caller_files_are_user_files_witness :
  exists cc, find_my_caller pyleak_dir stack9 1 = Ok cc /\
  exists files, cc_files cc = Some files /\
    forall fn, fn ∈ files ->
      fn ∈ map f_filename stack9 /\
      str_contains "site-packages" fn = false /\ str_contains "lib/python" fn = false /\
      String.prefix pyleak_dir fn = false.
Proof.
  eexists. assert (H : find_my_caller pyleak_dir stack9 1 = Ok _) by reflexivity.
  split; [exact H |]. exact (find_my_caller_files_are_user_files pyleak_dir stack9 1 _ H).
Defined.
